(** * BellShapedGrain (vital.py): regression geometry and mass flux

    A shallow embedding of the class [BellShapedGrain] of [vital.py].

    Python floats are IEEE 754 binary64 numbers and are embedded as Rocq's
    primitive floats, whose operations round as Python's do; a division by
    a zero of either sign raises [ZeroDivisionError] as in Python.
    Exceptions are carried by a small error monad.  Name resolution in the
    module's global scope is modelled explicitly, because [getFrustumInfo]
    applies the global name [atan].  The methods are embedded as lines 6-94
    define them; the text on line 96, which is not Python, belongs to no
    method and is not modelled. *)

From Stdlib Require Import Floats String List.
Import ListNotations.

Set Warnings "-inexact-float".

Open Scope string_scope.
Open Scope float_scope.

(** ** Exceptions and the error monad *)

Inductive PyExc : Type :=
| NameError (name : string)
| ZeroDivisionError
| TypeError
| OtherException (name : string).

Definition result (A : Type) : Type := (PyExc + A)%type.

Definition ret {A : Type} (a : A) : result A := inr a.

Definition raise {A : Type} (e : PyExc) : result A := inl e.

Definition bind {A B : Type} (c : result A) (k : A -> result B) : result B :=
  match c with
  | inl e => inl e
  | inr a => k a
  end.

Notation "x <- c ;; k" := (bind c (fun x => k))
  (at level 61, c at next level, right associativity).

(** ** Global scope of the module *)

(** What a global name can be bound to: a callable taking a float, which
    returns a float or raises, or any other object (a class or a module). *)
Inductive PyObj : Type :=
| PyFunction (f : float -> result float)
| PyOther.

Definition Globals : Type := list (string * PyObj).

Fixpoint lookup (name : string) (g : Globals) : option PyObj :=
  match g with
  | [] => None
  | (n, v) :: g' => if String.eqb n name then Some v else lookup name g'
  end.

(** The functions of Python's builtin scope, searched after the globals
    (its exception and constant names are left out).  No builtin name is
    [atan]. *)
Definition builtins : list string :=
  ["abs"; "aiter"; "all"; "anext"; "any"; "ascii"; "bin"; "bool";
   "breakpoint"; "bytearray"; "bytes"; "callable"; "chr"; "classmethod";
   "compile"; "complex"; "delattr"; "dict"; "dir"; "divmod"; "enumerate";
   "eval"; "exec"; "filter"; "float"; "format"; "frozenset"; "getattr";
   "globals"; "hasattr"; "hash"; "help"; "hex"; "id"; "input"; "int";
   "isinstance"; "issubclass"; "iter"; "len"; "list"; "locals"; "map";
   "max"; "memoryview"; "min"; "next"; "object"; "oct"; "open"; "ord";
   "pow"; "print"; "property"; "range"; "repr"; "reversed"; "round";
   "set"; "setattr"; "slice"; "sorted"; "staticmethod"; "str"; "sum";
   "super"; "tuple"; "type"; "vars"; "zip"].

Definition in_builtins (name : string) : bool :=
  existsb (String.eqb name) builtins.

(** Loading a global name: the module's globals, then the builtins, else
    [NameError]. *)
Definition LOAD_GLOBAL (g : Globals) (name : string) : result PyObj :=
  match lookup name g with
  | Some v => ret v
  | None => if in_builtins name then ret PyOther else raise (NameError name)
  end.

(** Calling an object on one float. *)
Definition CALL (callee : PyObj) (x : float) : result float :=
  match callee with
  | PyFunction f => f x
  | PyOther => raise TypeError
  end.

(** The global scope [vital.py] builds: the names bound by its four import
    statements (lines 1-4) and by the class statement (line 6). *)
Definition vital_globals : Globals :=
  [("Grain", PyOther);
   ("geometry", PyOther);
   ("SimAlert", PyOther);
   ("SimAlertLevel", PyOther);
   ("SimAlertType", PyOther);
   ("FloatProperty", PyOther);
   ("EnumProperty", PyOther);
   ("BellShapedGrain", PyOther)].

(** ** Float division *)

(** Python's [x / y] on floats: [ZeroDivisionError] when the divisor
    compares equal to 0 (0.0 or -0.0), the rounded IEEE quotient
    otherwise. *)
Definition truediv (x y : float) : result float :=
  if y =? 0 then raise ZeroDivisionError else ret (x / y).

(** ** The grain's properties *)

(** The values held in [self.props]: the three diameters and the inhibited
    ends of [__init__], and the length inherited from [Grain]. *)
Record Props : Type := mkProps {
  initialPortDiameter : float;
  throatDiameter : float;
  aftEndDiameter : float;
  inhibitedEnds : string;
  length : float
}.

(** ** Geometry primitives *)

(** The two functions of the [geometry] module the grain calls.  The
    module is not part of the source, so they are parameters: each takes
    floats and returns a float or raises. *)
Class Geometry : Type := {
  frustumVolume : float -> float -> float -> result float;
  circleArea : float -> result float
}.

(** ** The methods of BellShapedGrain *)

(** Line 20: [initialPortDiameter > aftEndDiameter], the IEEE comparison,
    false when either value is not a number. *)
Definition isCoreInverted (self : Props) : bool :=
  aftEndDiameter self <? initialPortDiameter self.

Definition getFrustumInfo (g : Globals) (self : Props) (regDist : float)
  : result (float * float * float) :=
  let initialPortDiameter := initialPortDiameter self in
  let throatDiameter := throatDiameter self in
  let aftEndDiameter := aftEndDiameter self in
  let grainLength := length self in
  let exposedFaces := 0%nat in
  let inhibitedEnds := inhibitedEnds self in
  let exposedFaces :=
    if String.eqb inhibitedEnds "Neither" then 2%nat
    else if existsb (String.eqb inhibitedEnds) ["Top"; "Bottom"] then 1%nat
    else exposedFaces in
  let '(coreMajorDiameter, coreMinorDiameter) :=
    if isCoreInverted self
    then (initialPortDiameter, aftEndDiameter)
    else (aftEndDiameter, initialPortDiameter) in
  atan_ <- LOAD_GLOBAL g "atan" ;;
  slope <- truediv (coreMajorDiameter - coreMinorDiameter) (2 * grainLength) ;;
  angle <- CALL atan_ slope ;;
  burntMajor <- truediv regDist grainLength ;;
  let regCoreMajorDiameter := coreMajorDiameter * (1 - burntMajor) in
  burntMinor <- truediv regDist grainLength ;;
  let regCoreMinorDiameter := coreMinorDiameter * (1 - burntMinor) in
  let frustumLength := grainLength - regDist in
  let aftFrustumDiameter := regCoreMinorDiameter in
  let forwardFrustumDiameter := regCoreMajorDiameter in
  if isCoreInverted self
  then ret (aftFrustumDiameter, forwardFrustumDiameter, frustumLength)
  else ret (forwardFrustumDiameter, aftFrustumDiameter, frustumLength).

(** Line 78: the slot of the current frustum used for the port area. *)
Definition portDiameterOf (self : Props) (currentDiameters : float * float * float)
  : float :=
  let '(slot0, slot1, _) := currentDiameters in
  if isCoreInverted self then slot1 else slot0.

Definition getMassFlux `{Geometry} (g : Globals) (self : Props)
    (massIn dTime regDist dRegDist position density : float) : result float :=
  currentDiameters <- getFrustumInfo g self regDist ;;
  futureDiameters <- getFrustumInfo g self (regDist + dRegDist) ;;
  let '(c0, c1, c2) := currentDiameters in
  let '(f0, f1, f2) := futureDiameters in
  currentVolume <- frustumVolume c0 c1 c2 ;;
  futureVolume <- frustumVolume f0 f1 f2 ;;
  massFlow <- truediv ((futureVolume - currentVolume) * density) dTime ;;
  let massFlow := massFlow + massIn in
  let portDiameter := portDiameterOf self currentDiameters in
  portArea <- circleArea portDiameter ;;
  truediv massFlow portArea.

(** ** Validation *)

Inductive SimAlertLevel : Type := ERROR | WARNING | MESSAGE.

Inductive SimAlertType : Type := GEOMETRY | CONSTRAINT | VALUE.

Record SimAlert : Type := mkSimAlert {
  level : SimAlertLevel;
  type : SimAlertType;
  description : string
}.

Section Validation.

(** [super().getGeometryErrors()]: the validation of the base class
    [Grain], which is not part of the module. *)
Variable Grain_getGeometryErrors : Props -> list SimAlert.

Definition getGeometryErrors (self : Props) : list SimAlert :=
  let errors := Grain_getGeometryErrors self in
  errors.

End Validation.

(** ** The configuration of the specification's scenario *)

Definition scenario : Props :=
  {| initialPortDiameter := 0.05;
     throatDiameter := 0;
     aftEndDiameter := 0.10;
     inhibitedEnds := "Both";
     length := 0.20 |}.

(** ** Float division by zero *)

Lemma truediv_by_zero (x : float) :
  truediv x 0 = raise ZeroDivisionError /\
  truediv x (-0) = raise ZeroDivisionError.
Proof. split; reflexivity. Qed.

(** ** Name resolution of [atan] *)

Lemma LOAD_GLOBAL_vital_atan :
  LOAD_GLOBAL vital_globals "atan" = raise (NameError "atan").
Proof. reflexivity. Qed.

(** An exception raised while loading [atan] leaves [getFrustumInfo],
    before any division is evaluated. *)
Lemma getFrustumInfo_load_fails (g : Globals) (e : PyExc) (self : Props)
    (regDist : float) :
  LOAD_GLOBAL g "atan" = raise e ->
  getFrustumInfo g self regDist = raise e.
Proof.
  intros Hload. unfold getFrustumInfo.
  destruct (isCoreInverted self); rewrite Hload; reflexivity.
Qed.

Lemma getFrustumInfo_vital (self : Props) (regDist : float) :
  getFrustumInfo vital_globals self regDist = raise (NameError "atan").
Proof. apply getFrustumInfo_load_fails, LOAD_GLOBAL_vital_atan. Qed.

Lemma getMassFlux_vital `{Geometry} (self : Props)
    (massIn dTime regDist dRegDist position density : float) :
  getMassFlux vital_globals self massIn dTime regDist dRegDist position density
  = raise (NameError "atan").
Proof. unfold getMassFlux. rewrite getFrustumInfo_vital. reflexivity. Qed.

(** ** The module as written: every call raises *)

(** C3: as the module is written, no call of [getFrustumInfo], and so no
    call of [getMassFlux], completes normally: for every configuration and
    all inputs, line 46 loads the name [atan], which neither the module nor
    the builtins bind, and the call raises [NameError]. *)
Theorem calls_raise_NameError `{Geometry} (self : Props)
    (massIn dTime regDist dRegDist position density : float) :
  getFrustumInfo vital_globals self regDist = raise (NameError "atan") /\
  getMassFlux vital_globals self massIn dTime regDist dRegDist position density
  = raise (NameError "atan").
Proof.
  split.
  - apply getFrustumInfo_vital.
  - apply getMassFlux_vital.
Qed.

(** C1: the module as written at the scenario's configuration with
    [massIn = 1], [dTime = 1], [regDist = 0], [dRegDist = 0.01],
    [density = 1]: [getMassFlux] returns no flux, it raises [NameError]. *)
Theorem getMassFlux_unit_step_raises `{Geometry} :
  getMassFlux vital_globals scenario 1 1 0 0.01 0 1 = raise (NameError "atan").
Proof. apply getMassFlux_vital. Qed.

(** C2: the module as written at the scenario's configuration:
    [getFrustumInfo(0)] and [getFrustumInfo(0.10)] return no triple, they
    raise [NameError]. *)
Theorem getFrustumInfo_scenario_raises :
  getFrustumInfo vital_globals scenario 0 = raise (NameError "atan") /\
  getFrustumInfo vital_globals scenario 0.10 = raise (NameError "atan").
Proof. split; apply getFrustumInfo_vital. Qed.

(** C4: the module as written at the scenario's configuration with
    [massIn = 0], [dTime = 0.01], [regDist = 0], [dRegDist = 0.001],
    [density = 1700]: [getMassFlux] yields no value, positive or not, it
    raises [NameError] in its first call of [getFrustumInfo]. *)
Theorem getMassFlux_scenario_raises `{Geometry} :
  getMassFlux vital_globals scenario 0 0.01 0 0.001 0 1700
  = raise (NameError "atan").
Proof. apply getMassFlux_vital. Qed.

(** C5: the module as written at the scenario's configuration: the calls
    of [getMassFlux] at densities 1700 and 1800, and at incoming mass
    flows 0 and 1, return no fluxes to compare, each raises
    [NameError]. *)
Theorem getMassFlux_compared_calls_raise `{Geometry} :
  getMassFlux vital_globals scenario 0 0.01 0 0.001 0 1700
  = raise (NameError "atan") /\
  getMassFlux vital_globals scenario 0 0.01 0 0.001 0 1800
  = raise (NameError "atan") /\
  getMassFlux vital_globals scenario 1 0.01 0 0.001 0 1700
  = raise (NameError "atan").
Proof. repeat split; apply getMassFlux_vital. Qed.

(** C6: the module as written at the scenario's configuration and
    [regDist = length = 0.20]: [getFrustumInfo] returns no triple of
    zeros, it raises [NameError]. *)
Theorem getFrustumInfo_burnout_raises :
  getFrustumInfo vital_globals scenario (length scenario) = raise (NameError "atan").
Proof. apply getFrustumInfo_vital. Qed.

(** C7: the module as written at the scenario's configuration and the
    regression distances 0.05 <= 0.15: neither call of [getFrustumInfo]
    returns diameters to compare, both raise [NameError]. *)
Theorem getFrustumInfo_ordered_distances_raise :
  getFrustumInfo vital_globals scenario 0.05 = raise (NameError "atan") /\
  getFrustumInfo vital_globals scenario 0.15 = raise (NameError "atan").
Proof. split; apply getFrustumInfo_vital. Qed.

(** C8: the module as written at the scenario's configuration and
    [regDist = 0.08 < length]: [getFrustumInfo] returns no diameters whose
    taper ratio could be formed, it raises [NameError]. *)
Theorem getFrustumInfo_taper_input_raises :
  getFrustumInfo vital_globals scenario 0.08 = raise (NameError "atan").
Proof. apply getFrustumInfo_vital. Qed.

(** C9: the module as written at the scenario's configuration and
    [regDist = 0.10]: [getFrustumInfo] returns no frustum and
    [getMassFlux] raises [NameError] on line 68, so line 78 is never
    reached and no port diameter, major or minor, is selected. *)
Theorem getMassFlux_selects_no_port_diameter `{Geometry} :
  getFrustumInfo vital_globals scenario 0.10 = raise (NameError "atan") /\
  getMassFlux vital_globals scenario 0 0.01 0.10 0.001 0 1700
  = raise (NameError "atan").
Proof.
  split.
  - apply getFrustumInfo_vital.
  - apply getMassFlux_vital.
Qed.

(** ** Validation *)

(** C10, as amended: [getGeometryErrors] delegates to the base grain's
    validation and returns its alert sequence unchanged; it appends no
    shape-specific check, so its result is empty exactly when the base
    validation reports nothing. *)
Theorem getGeometryErrors_is_base (base : Props -> list SimAlert) (self : Props) :
  getGeometryErrors base self = base self /\
  (getGeometryErrors base self = [] <-> base self = []).
Proof.
  unfold getGeometryErrors. split; [reflexivity | ].
  split; intros Hnil; exact Hnil.
Qed.

(** C10 as stated fails: over a base validation that reports nothing, a
    grain of length 0 gets an empty alert sequence although its length is
    not positive. *)
Lemma getGeometryErrors_misses_zero_length :
  getGeometryErrors (fun _ => []) (mkProps 0.05 0 0.10 "Both" 0) = [] /\
  (0 <? length (mkProps 0.05 0 0.10 "Both" 0)) = false.
Proof. split; reflexivity. Qed.
